(** * The push handler of [sw.js]

    [sw.js] registers one listener for the service worker's [push] event:

<<
    self.addEventListener('push', function(event) {
        const data = event.data ? event.data.json()
                                : { title: 'Market Alert', body: 'New Signal Detected!' };
        const options = {
            body: data.body,
            icon: 'https://cdn-icons-png.flaticon.com/512/2464/2464402.png',
            badge: 'https://cdn-icons-png.flaticon.com/512/2464/2464402.png'
        };
        event.waitUntil(self.registration.showNotification(data.title, options));
    });
>>

    The listener is embedded as a function [onPush] in a small monad that
    threads the host's state, records the platform calls the listener makes
    and carries JavaScript's abrupt completions.  The platform operations the
    listener relies on ([PushMessageData.json()], property reads,
    [showNotification], [waitUntil]) are modelled next to it, executable, so
    that every statement below can be evaluated on concrete payloads. *)

From Stdlib Require Import List NArith Bool Ascii String Lia.
Import ListNotations.

#[local] Set Warnings "-register-all".

Local Open Scope N_scope.

(** ** Text: bytes and UTF-16 code units *)

Module Text.

(** A JavaScript string is a sequence of 16-bit code units. *)
Definition jsstring := list N.

(** A push payload is a sequence of octets. *)
Definition bytes := list N.

Definition ch (a : ascii) : N := N_of_ascii a.

(** The quotation mark, and a literal between quotation marks. *)
Definition dquote : ascii := "034".

Definition quoted (s : string) : string :=
  String dquote (s ++ String dquote EmptyString).

(** The code units of a source literal (the literals of [sw.js] are ASCII). *)
Fixpoint str (s : string) : jsstring :=
  match s with
  | EmptyString => []
  | String a s' => ch a :: str s'
  end.

Fixpoint jsstring_eqb (s t : jsstring) : bool :=
  match s, t with
  | [], [] => true
  | c :: s', d :: t' => (c =? d) && jsstring_eqb s' t'
  | _, _ => false
  end.

(** *** UTF-8 decoding (Encoding standard, "UTF-8 decode", replacement mode)

    State of the decoder: the code point under construction, the number of
    continuation bytes still expected, and the bounds the next continuation
    byte must respect. *)
Record utf8_state := Utf8 {
  utf8_code_point : N;
  utf8_bytes_left : nat;
  utf8_lower : N;
  utf8_upper : N
}.

Definition utf8_init : utf8_state := Utf8 0 0 0x80 0xBF.

Definition replacement : N := 0xFFFD.

Definition in_range (lo hi b : N) : bool := (lo <=? b) && (b <=? hi).

(** A byte read while no sequence is open. *)
Definition utf8_lead (b : N) : list N * utf8_state :=
  if b <=? 0x7F then ([b], utf8_init)
  else if in_range 0xC2 0xDF b then ([], Utf8 (N.land b 0x1F) 1 0x80 0xBF)
  else if in_range 0xE0 0xEF b then
    ([], Utf8 (N.land b 0xF) 2
              (if b =? 0xE0 then 0xA0 else 0x80)
              (if b =? 0xED then 0x9F else 0xBF))
  else if in_range 0xF0 0xF4 b then
    ([], Utf8 (N.land b 0x7) 3
              (if b =? 0xF0 then 0x90 else 0x80)
              (if b =? 0xF4 then 0x8F else 0xBF))
  else ([replacement], utf8_init).

(** One byte: the code points it completes and the next state.  A byte that
    breaks an open sequence yields a replacement character and is then read
    again as a lead byte. *)
Definition utf8_step (st : utf8_state) (b : N) : list N * utf8_state :=
  match utf8_bytes_left st with
  | O => utf8_lead b
  | S r =>
      if in_range (utf8_lower st) (utf8_upper st) b then
        let cp := N.lor (N.shiftl (utf8_code_point st) 6) (N.land b 0x3F) in
        match r with
        | O => ([cp], utf8_init)
        | S _ => ([], Utf8 cp r 0x80 0xBF)
        end
      else
        let '(out, st') := utf8_lead b in (replacement :: out, st')
  end.

Fixpoint utf8_run (st : utf8_state) (bs : bytes) : list N :=
  match bs with
  | [] => match utf8_bytes_left st with O => [] | S _ => [replacement] end
  | b :: bs' => let '(out, st') := utf8_step st b in out ++ utf8_run st' bs'
  end.

(** A leading byte order mark is dropped. *)
Definition strip_bom (bs : bytes) : bytes :=
  match bs with
  | b1 :: b2 :: b3 :: bs' =>
      if (b1 =? 0xEF) && (b2 =? 0xBB) && (b3 =? 0xBF) then bs' else bs
  | _ => bs
  end.

(** A code point as one code unit or as a surrogate pair. *)
Definition utf16_units (cp : N) : list N :=
  if cp <? 0x10000 then [cp]
  else let c := cp - 0x10000 in
       [0xD800 + N.shiftr c 10; 0xDC00 + N.land c 0x3FF].

Definition utf8_decode (bs : bytes) : jsstring :=
  flat_map utf16_units (utf8_run utf8_init (strip_bom bs)).

End Text.
Export Text.

(** ** JSON: values and [JSON.parse] *)

Module JSON.

(** JavaScript values as far as the listener meets them: [undefined] and what
    [JSON.parse] can return.  A number keeps the text of its literal (its
    conversion to a double is not modelled; the listener never computes with
    one).  An object is the list of its own properties in creation order. *)
Inductive JsValue : Type :=
| JUndefined
| JNull
| JBool (b : bool)
| JNumber (literal : jsstring)
| JString (s : jsstring)
| JArray (elements : list JsValue)
| JObject (props : list (jsstring * JsValue)).

(** [CreateDataProperty]: a key already present keeps its place and takes the
    new value. *)
Fixpoint define_prop (k : jsstring) (v : JsValue)
         (props : list (jsstring * JsValue)) : list (jsstring * JsValue) :=
  match props with
  | [] => [(k, v)]
  | (k', v') :: rest =>
      if jsstring_eqb k k' then (k, v) :: rest
      else (k', v') :: define_prop k v rest
  end.

Fixpoint own_prop (k : jsstring) (props : list (jsstring * JsValue))
  : option JsValue :=
  match props with
  | [] => None
  | (k', v) :: rest => if jsstring_eqb k k' then Some v else own_prop k rest
  end.

(** The values [JSON.parse] can build: [undefined] occurs nowhere in them. *)
Fixpoint is_json (v : JsValue) : bool :=
  match v with
  | JUndefined => false
  | JNull | JBool _ | JNumber _ | JString _ => true
  | JArray elements => forallb is_json elements
  | JObject props => forallb (fun p => is_json (snd p)) props
  end.

Definition props_json (props : list (jsstring * JsValue)) : bool :=
  forallb (fun p => is_json (snd p)) props.

(** *** Tokens *)

Inductive token : Type :=
| TLBrace | TRBrace | TLBracket | TRBracket | TColon | TComma
| TString (s : jsstring)
| TNumber (literal : jsstring)
| TTrue | TFalse | TNull.

(** Position inside a number literal: an optional minus sign; a zero, or a
    digit from 1 to 9 followed by any digits; optionally a dot and one or
    more digits; optionally [e] or [E], an optional sign and one or more
    digits. *)
Inductive numst : Type :=
| NMinus | NZero | NInt | NDot | NFrac | NExpMark | NExpSign | NExp.

Definition is_digit (c : N) : bool := in_range (ch "0") (ch "9") c.

Definition num_accepting (s : numst) : bool :=
  match s with
  | NZero | NInt | NFrac | NExp => true
  | NMinus | NDot | NExpMark | NExpSign => false
  end.

Definition is_exp_mark (c : N) : bool := (c =? ch "e") || (c =? ch "E").

Definition num_step (s : numst) (c : N) : option numst :=
  match s with
  | NMinus =>
      if c =? ch "0" then Some NZero
      else if is_digit c then Some NInt else None
  | NZero =>
      if c =? ch "." then Some NDot
      else if is_exp_mark c then Some NExpMark else None
  | NInt =>
      if is_digit c then Some NInt
      else if c =? ch "." then Some NDot
      else if is_exp_mark c then Some NExpMark else None
  | NDot => if is_digit c then Some NFrac else None
  | NFrac =>
      if is_digit c then Some NFrac
      else if is_exp_mark c then Some NExpMark else None
  | NExpMark =>
      if (c =? ch "+") || (c =? ch "-") then Some NExpSign
      else if is_digit c then Some NExp else None
  | NExpSign => if is_digit c then Some NExp else None
  | NExp => if is_digit c then Some NExp else None
  end.

Definition hex_value (c : N) : option N :=
  if is_digit c then Some (c - ch "0")
  else if in_range (ch "a") (ch "f") c then Some (c - ch "a" + 10)
  else if in_range (ch "A") (ch "F") c then Some (c - ch "A" + 10)
  else None.

(** State of the scanner between two code units.  Accumulators are kept in
    reverse. *)
Inductive lexst : Type :=
| LStart
| LStr (acc : jsstring)
| LEsc (acc : jsstring)
| LHex (acc : jsstring) (digits : nat) (value : N)
| LNum (s : numst) (acc : jsstring)
| LLit (rest : jsstring) (tok : token).

Definition is_ws (c : N) : bool :=
  (c =? 0x09) || (c =? 0x0A) || (c =? 0x0D) || (c =? 0x20).

Definition lex_start (c : N) : option (list token * lexst) :=
  if is_ws c then Some ([], LStart)
  else if c =? ch "{" then Some ([TLBrace], LStart)
  else if c =? ch "}" then Some ([TRBrace], LStart)
  else if c =? ch "[" then Some ([TLBracket], LStart)
  else if c =? ch "]" then Some ([TRBracket], LStart)
  else if c =? ch ":" then Some ([TColon], LStart)
  else if c =? ch "," then Some ([TComma], LStart)
  else if c =? ch dquote then Some ([], LStr [])
  else if c =? ch "-" then Some ([], LNum NMinus [c])
  else if c =? ch "0" then Some ([], LNum NZero [c])
  else if is_digit c then Some ([], LNum NInt [c])
  else if c =? ch "t" then Some ([], LLit (str "rue") TTrue)
  else if c =? ch "f" then Some ([], LLit (str "alse") TFalse)
  else if c =? ch "n" then Some ([], LLit (str "ull") TNull)
  else None.

Definition escape_value (c : N) : option N :=
  if c =? ch dquote then Some (ch dquote)
  else if c =? ch "\" then Some (ch "\")
  else if c =? ch "/" then Some (ch "/")
  else if c =? ch "b" then Some 0x08
  else if c =? ch "f" then Some 0x0C
  else if c =? ch "n" then Some 0x0A
  else if c =? ch "r" then Some 0x0D
  else if c =? ch "t" then Some 0x09
  else None.

Definition lex_step (st : lexst) (c : N) : option (list token * lexst) :=
  match st with
  | LStart => lex_start c
  | LStr acc =>
      if c =? ch dquote then Some ([TString (rev acc)], LStart)
      else if c =? ch "\" then Some ([], LEsc acc)
      else if c <? 0x20 then None
      else Some ([], LStr (c :: acc))
  | LEsc acc =>
      if c =? ch "u" then Some ([], LHex acc 4 0)
      else match escape_value c with
           | Some u => Some ([], LStr (u :: acc))
           | None => None
           end
  | LHex acc digits value =>
      match hex_value c with
      | Some d =>
          let value' := 16 * value + d in
          match digits with
          | O | 1%nat => Some ([], LStr (value' :: acc))
          | S digits' => Some ([], LHex acc digits' value')
          end
      | None => None
      end
  | LNum s acc =>
      match num_step s c with
      | Some s' => Some ([], LNum s' (c :: acc))
      | None =>
          if num_accepting s then
            match lex_start c with
            | Some (toks, st') => Some (TNumber (rev acc) :: toks, st')
            | None => None
            end
          else None
      end
  | LLit rest tok =>
      match rest with
      | [] => None
      | d :: rest' =>
          if c =? d then
            match rest' with
            | [] => Some ([tok], LStart)
            | _ :: _ => Some ([], LLit rest' tok)
            end
          else None
      end
  end.

Definition lex_end (st : lexst) : option (list token) :=
  match st with
  | LStart => Some []
  | LNum s acc => if num_accepting s then Some [TNumber (rev acc)] else None
  | LStr _ | LEsc _ | LHex _ _ _ | LLit _ _ => None
  end.

Fixpoint lex_from (st : lexst) (text : jsstring) : option (list token) :=
  match text with
  | [] => lex_end st
  | c :: text' =>
      match lex_step st c with
      | Some (toks, st') =>
          match lex_from st' text' with
          | Some more => Some (toks ++ more)
          | None => None
          end
      | None => None
      end
  end.

Definition lex (text : jsstring) : option (list token) := lex_from LStart text.

(** The scanner run over a stretch of text: the tokens completed and the
    state reached. *)
Fixpoint lex_run (st : lexst) (text : jsstring)
  : option (list token * lexst) :=
  match text with
  | [] => Some ([], st)
  | c :: text' =>
      match lex_step st c with
      | Some (toks, st') =>
          match lex_run st' text' with
          | Some (more, st'') => Some (toks ++ more, st'')
          | None => None
          end
      | None => None
      end
  end.

(** A code unit that stands for itself inside a string literal and is one
    octet in UTF-8. *)
Definition plain (c : N) : bool :=
  (0x20 <=? c) && (c <=? 0x7F)
  && negb (c =? ch dquote) && negb (c =? ch "\").

(** *** Grammar

    The parser keeps the containers that are still open on a stack, so it
    reads the tokens in one pass. *)
Inductive frame : Type :=
| FArr (elements : list JsValue)
| FObj (props : list (jsstring * JsValue)) (key : jsstring).

Inductive pstate : Type :=
| PValue (stack : list frame)
| PArrStart (stack : list frame)
| PObjStart (stack : list frame)
| PKey (props : list (jsstring * JsValue)) (stack : list frame)
| PColon (props : list (jsstring * JsValue)) (key : jsstring)
         (stack : list frame)
| PAfter (v : JsValue) (stack : list frame).

(** A token where a value may start. *)
Definition parse_value_start (stack : list frame) (t : token) : option pstate :=
  match t with
  | TLBrace => Some (PObjStart stack)
  | TLBracket => Some (PArrStart stack)
  | TString s => Some (PAfter (JString s) stack)
  | TNumber l => Some (PAfter (JNumber l) stack)
  | TTrue => Some (PAfter (JBool true) stack)
  | TFalse => Some (PAfter (JBool false) stack)
  | TNull => Some (PAfter JNull stack)
  | TRBrace | TRBracket | TColon | TComma => None
  end.

Definition parse_step (st : pstate) (t : token) : option pstate :=
  match st with
  | PValue stack => parse_value_start stack t
  | PArrStart stack =>
      match t with
      | TRBracket => Some (PAfter (JArray []) stack)
      | _ => parse_value_start (FArr [] :: stack) t
      end
  | PObjStart stack =>
      match t with
      | TRBrace => Some (PAfter (JObject []) stack)
      | TString k => Some (PColon [] k stack)
      | _ => None
      end
  | PKey props stack =>
      match t with
      | TString k => Some (PColon props k stack)
      | _ => None
      end
  | PColon props k stack =>
      match t with
      | TColon => Some (PValue (FObj props k :: stack))
      | _ => None
      end
  | PAfter v [] => None
  | PAfter v (FArr elements :: stack) =>
      match t with
      | TComma => Some (PValue (FArr (elements ++ [v]) :: stack))
      | TRBracket => Some (PAfter (JArray (elements ++ [v])) stack)
      | _ => None
      end
  | PAfter v (FObj props k :: stack) =>
      match t with
      | TComma => Some (PKey (define_prop k v props) stack)
      | TRBrace => Some (PAfter (JObject (define_prop k v props)) stack)
      | _ => None
      end
  end.

Fixpoint parse_from (st : pstate) (toks : list token) : option JsValue :=
  match toks with
  | [] => match st with PAfter v [] => Some v | _ => None end
  | t :: toks' =>
      match parse_step st t with
      | Some st' => parse_from st' toks'
      | None => None
      end
  end.

(** What the parser holds while it runs is made of JSON values. *)
Definition frame_json (f : frame) : bool :=
  match f with
  | FArr elements => forallb is_json elements
  | FObj props _ => props_json props
  end.

Definition pstate_json (st : pstate) : bool :=
  match st with
  | PValue stack | PArrStart stack | PObjStart stack =>
      forallb frame_json stack
  | PKey props stack | PColon props _ stack =>
      props_json props && forallb frame_json stack
  | PAfter v stack => is_json v && forallb frame_json stack
  end.

(** [JSON.parse]: [None] stands for the [SyntaxError] it throws. *)
Definition parse (text : jsstring) : option JsValue :=
  match lex text with
  | Some toks => parse_from (PValue []) toks
  | None => None
  end.

End JSON.
Export JSON.

Local Close Scope N_scope.

(** ** The host: completions, platform calls, events *)

Module Host.

(** The exceptions the listener can meet. *)
Inductive JsError : Type := SyntaxError | TypeError.

(** A completion record: a value, or a thrown exception. *)
Inductive Completion (A : Type) : Type :=
| Normal (a : A)
| Throw (e : JsError).
Arguments Normal {A} a.
Arguments Throw {A} e.

(** Promises and events are host objects; the model keeps their identity. *)
Definition Promise := nat.
Definition EventId := nat.

(** The platform calls a listener can make. *)
Inductive Call : Type :=
| ShowNotification (title options : JsValue) (result : Promise)
| WaitUntil (event : EventId) (p : Promise).

(** State of the host between calls: the number of promises handed out. *)
Record HostState := { next_promise : Promise }.

(** What running a piece of the listener gives: its completion, the calls it
    made in order, and the host's state afterwards. *)
Record Outcome (A : Type) := {
  completion : Completion A;
  calls : list Call;
  host_after : HostState
}.
Arguments completion {A} o.
Arguments calls {A} o.
Arguments host_after {A} o.

Definition JS (A : Type) : Type := HostState -> Outcome A.

Definition ret {A} (a : A) : JS A :=
  fun h => {| completion := Normal a; calls := []; host_after := h |}.

(** A pure completion inside [JS]. *)
Definition lift {A} (c : Completion A) : JS A :=
  fun h => {| completion := c; calls := []; host_after := h |}.

(** Sequencing: a throw abandons what follows and keeps the calls made. *)
Definition bind {A B} (m : JS A) (k : A -> JS B) : JS B :=
  fun h =>
    let o := m h in
    match completion o with
    | Normal a =>
        let o' := k a (host_after o) in
        {| completion := completion o';
           calls := calls o ++ calls o';
           host_after := host_after o' |}
    | Throw e =>
        {| completion := Throw e; calls := calls o;
           host_after := host_after o |}
    end.

(** [PushMessageData]: the octets the push service delivered. *)
Record PushMessageData := { payload : bytes }.

(** [PushEvent] as dispatched by the push service: [event.data] is [null]
    ([None]) when the message has no payload. *)
Record PushEvent := {
  event_id : EventId;
  data : option PushMessageData
}.

(** [PushMessageData.json()]: UTF-8 decode the octets, then [JSON.parse]. *)
Definition json (d : PushMessageData) : Completion JsValue :=
  match JSON.parse (utf8_decode (payload d)) with
  | Some v => Normal v
  | None => Throw SyntaxError
  end.

(** [v.k] for a key that no built-in prototype defines (the listener reads
    [title] and [body] only): reading from [null] or [undefined] throws a
    [TypeError]; an object gives its own property or [undefined]; any other
    value gives [undefined]. *)
Definition GetV (v : JsValue) (k : jsstring) : Completion JsValue :=
  match v with
  | JUndefined | JNull => Throw TypeError
  | JObject props =>
      match own_prop k props with
      | Some x => Normal x
      | None => Normal JUndefined
      end
  | JBool _ | JNumber _ | JString _ | JArray _ => Normal JUndefined
  end.

(** [self.registration.showNotification(title, options)]: the request is
    recorded and a fresh promise is returned. *)
Definition showNotification (title options : JsValue) : JS Promise :=
  fun h =>
    {| completion := Normal (next_promise h);
       calls := [ShowNotification title options (next_promise h)];
       host_after := {| next_promise := S (next_promise h) |} |}.

(** [event.waitUntil(p)], for an event the host is dispatching. *)
Definition waitUntil (event : PushEvent) (p : Promise) : JS JsValue :=
  fun h =>
    {| completion := Normal JUndefined;
       calls := [WaitUntil (event_id event) p];
       host_after := h |}.

(** The notification-display requests among some calls. *)
Fixpoint requests (cs : list Call) : list (JsValue * JsValue * Promise) :=
  match cs with
  | [] => []
  | ShowNotification t o p :: cs' => (t, o, p) :: requests cs'
  | WaitUntil _ _ :: cs' => requests cs'
  end.

(** The lifetime extensions among some calls. *)
Fixpoint extensions (cs : list Call) : list (EventId * Promise) :=
  match cs with
  | [] => []
  | ShowNotification _ _ _ :: cs' => extensions cs'
  | WaitUntil e p :: cs' => (e, p) :: extensions cs'
  end.

End Host.
Export Host.

Declare Scope js_scope.
Delimit Scope js_scope with js.
Notation "'let*' x ':=' m 'in' k" := (bind m (fun x => k))
  (at level 10, x name, m at level 100, k at level 200) : js_scope.

(** ** The listener *)

Definition icon_url : jsstring :=
  str "https://cdn-icons-png.flaticon.com/512/2464/2464402.png".

(** The object literal of line 3. *)
Definition default_data : JsValue :=
  JObject [ (str "title", JString (str "Market Alert"));
            (str "body", JString (str "New Signal Detected!")) ].

(** Line 3: the initialiser of [data]. *)
Definition notification_data (event : PushEvent) : Completion JsValue :=
  match data event with
  | Some d => json d
  | None => Normal default_data
  end.

(** Lines 4 to 8: the object literal bound to [options], given [data.body]. *)
Definition options (body : JsValue) : JsValue :=
  JObject [ (str "body", body);
            (str "icon", JString icon_url);
            (str "badge", JString icon_url) ].

(** The listener, statement by statement; it has no [return], so a run that
    reaches its end gives [undefined]. *)
Definition onPush (event : PushEvent) : JS JsValue :=
  (let* data := lift (notification_data event) in
   let* body := lift (GetV data (str "body")) in
   let* title := lift (GetV data (str "title")) in
   let* promise := showNotification title (options body) in
   let* _ := waitUntil event promise in
   ret JUndefined)%js.

(** An event of the push service with the given payload text. *)
Definition push_with (id : EventId) (text : string) : PushEvent :=
  {| event_id := id; data := Some {| payload := str text |} |}.

Definition push_empty (id : EventId) : PushEvent :=
  {| event_id := id; data := None |}.

(** The payload text of an object with a [title] and a [body] string. *)
Definition alert_text (title body : string) : string :=
  ("{" ++ quoted "title" ++ ":" ++ quoted title ++ ","
       ++ quoted "body" ++ ":" ++ quoted body ++ "}")%string.

(** ** Properties the statements below speak of *)

(** A value that is neither [undefined] nor [null]. *)
Definition defined (v : JsValue) : Prop := v <> JUndefined /\ v <> JNull.

(** [d.title] and [d.body] can be read and are both defined. *)
Definition has_title_and_body (d : JsValue) : Prop :=
  exists t b,
    GetV d (str "title") = Normal t /\ GetV d (str "body") = Normal b /\
    defined t /\ defined b.

(** The outcome of a run that displays: one request for [title] and
    [options body], then the extension of [event]'s lifetime by the promise
    that request returned. *)
Definition displayed (event : PushEvent) (title body : JsValue)
           (h : HostState) : Outcome JsValue :=
  {| completion := Normal JUndefined;
     calls := [ ShowNotification title (options body) (next_promise h);
                WaitUntil (event_id event) (next_promise h) ];
     host_after := {| next_promise := S (next_promise h) |} |}.

(** What a request asks for, leaving out the promise it returned. *)
Definition request_content (r : JsValue * JsValue * Promise)
  : JsValue * JsValue :=
  let '(title, opts, _) := r in (title, opts).

(** One notification-display request and a normal return of [undefined]. *)
Definition one_request_no_value (o : Outcome JsValue) : Prop :=
  completion o = Normal JUndefined /\ List.length (requests (calls o)) = 1.

(** One lifetime extension, for [event], by the promise that a
    notification-display request of the same run returned. *)
Definition extends_once (event : PushEvent) (o : Outcome JsValue) : Prop :=
  exists title opts p,
    In (ShowNotification title opts p) (calls o) /\
    extensions (calls o) = [(event_id event, p)].

(** The event has no payload, or its payload is the text of a JSON value
    other than [null]. *)
Definition no_payload_or_non_null (event : PushEvent) : Prop :=
  data event = None \/
  exists d v, data event = Some d /\ json d = Normal v /\ v <> JNull.

(** The outcome of a run that throws before any platform call. *)
Definition thrown (e : JsError) (h : HostState) : Outcome JsValue :=
  {| completion := Throw e; calls := []; host_after := h |}.

(** A JSON value that is neither an object nor [null]: a boolean, a number,
    a string or an array. *)
Definition scalar_or_array (v : JsValue) : bool :=
  match v with
  | JBool _ | JNumber _ | JString _ | JArray _ => true
  | JUndefined | JNull | JObject _ => false
  end.

(** ** The parser builds JSON values only *)

Section ParserInvariant.

Lemma define_prop_json k v props :
  is_json v = true -> props_json props = true ->
  props_json (define_prop k v props) = true.
Proof.
  intros Hv. unfold props_json.
  induction props as [|[k' v'] rest IH]; simpl.
  - now rewrite Hv.
  - intros H. apply andb_true_iff in H as [Hv' Hrest].
    destruct (jsstring_eqb k k'); simpl.
    + now rewrite Hv, Hrest.
    + now rewrite Hv', IH.
Qed.

Lemma snoc_json v elements :
  is_json v = true -> forallb is_json elements = true ->
  forallb is_json (elements ++ [v]) = true.
Proof.
  intros Hv He. rewrite forallb_app, He. simpl. now rewrite Hv.
Qed.

Lemma parse_value_start_json stack t st :
  forallb frame_json stack = true ->
  parse_value_start stack t = Some st -> pstate_json st = true.
Proof.
  intros Hs. destruct t; simpl; intros [= <-]; simpl; auto.
Qed.

Lemma parse_step_json st t st' :
  pstate_json st = true -> parse_step st t = Some st' ->
  pstate_json st' = true.
Proof.
  destruct st as [stack|stack|stack|props stack|props k stack|v stack];
    simpl; intros Hst.
  - now apply parse_value_start_json.
  - destruct t; try (apply parse_value_start_json; simpl; assumption).
    intros [= <-]. simpl. assumption.
  - destruct t; intros [= <-]; simpl; assumption.
  - destruct t; intros [= <-]; simpl; assumption.
  - destruct t; intros [= <-]. simpl. assumption.
  - apply andb_true_iff in Hst as [Hv Hstack].
    destruct stack as [|[elements|props k] stack]; [discriminate| |];
      simpl in Hstack; apply andb_true_iff in Hstack as [Hf Hstack];
      destruct t; intros [= <-]; simpl;
      rewrite ?Hstack, ?andb_true_r;
      auto using snoc_json, define_prop_json.
Qed.

Lemma parse_from_json toks : forall st v,
  pstate_json st = true -> parse_from st toks = Some v -> is_json v = true.
Proof.
  induction toks as [|t toks IH]; simpl; intros st v Hst.
  - destruct st as [| | | | |w [|f stack]]; try discriminate.
    intros [= <-]. simpl in Hst. now apply andb_true_iff in Hst as [Hw _].
  - destruct (parse_step st t) as [st'|] eqn:E; [|discriminate].
    apply IH. eapply parse_step_json; eauto.
Qed.

Lemma parse_json text v : JSON.parse text = Some v -> is_json v = true.
Proof.
  unfold JSON.parse. destruct (lex text) as [toks|]; [|discriminate].
  now apply parse_from_json.
Qed.

Lemma own_prop_json k props v :
  props_json props = true -> own_prop k props = Some v -> is_json v = true.
Proof.
  unfold props_json. induction props as [|[k' v'] rest IH]; simpl.
  - discriminate.
  - intros H. apply andb_true_iff in H as [Hv' Hrest].
    destruct (jsstring_eqb k k').
    + now intros [= <-].
    + now apply IH.
Qed.

End ParserInvariant.

(** ** The listener, case by case *)

Section Listener.

Variable event : PushEvent.
Variable h : HostState.

Lemma onPush_displays d body title :
  notification_data event = Normal d ->
  GetV d (str "body") = Normal body ->
  GetV d (str "title") = Normal title ->
  onPush event h = displayed event title body h.
Proof.
  intros Hd Hb Ht. unfold onPush, bind, lift.
  cbn [completion calls host_after]. rewrite Hd, Hb, Ht. reflexivity.
Qed.

Lemma onPush_data_throws e :
  notification_data event = Throw e -> onPush event h = thrown e h.
Proof.
  intros Hd. unfold onPush, bind, lift.
  cbn [completion calls host_after]. now rewrite Hd.
Qed.

Lemma onPush_read_throws d e :
  notification_data event = Normal d ->
  GetV d (str "body") = Throw e ->
  onPush event h = thrown e h.
Proof.
  intros Hd Hb. unfold onPush, bind, lift.
  cbn [completion calls host_after]. now rewrite Hd, Hb.
Qed.

End Listener.

Lemma GetV_throws_for_every_key d k k' e :
  GetV d k = Throw e -> GetV d k' = Throw e.
Proof.
  destruct d; simpl; try discriminate; auto.
  destruct (own_prop k props); discriminate.
Qed.

Lemma GetV_non_null d k :
  d <> JUndefined -> d <> JNull -> exists x, GetV d k = Normal x.
Proof.
  destruct d; simpl; intros Hu Hn; try congruence; eauto.
  destruct (own_prop k props); eauto.
Qed.

Lemma json_is_json d v : json d = Normal v -> is_json v = true.
Proof.
  unfold json. destruct (JSON.parse _) as [w|] eqn:E; [|discriminate].
  intros [= <-]. eapply parse_json; eauto.
Qed.

Lemma json_not_undefined d v : json d = Normal v -> v <> JUndefined.
Proof.
  intros H%json_is_json ->. discriminate.
Qed.

Lemma json_throws_syntax_error d e : json d = Throw e -> e = SyntaxError.
Proof.
  unfold json. destruct (JSON.parse _); [discriminate|]. now intros [= <-].
Qed.

(** Every run either throws before any platform call or displays. *)
Lemma onPush_cases event h :
  (exists e, onPush event h = thrown e h) \/
  (exists title body, onPush event h = displayed event title body h).
Proof.
  destruct (notification_data event) as [d|e] eqn:Hd.
  - destruct (GetV d (str "body")) as [body|e] eqn:Hb.
    + destruct (GetV d (str "title")) as [title|e] eqn:Ht.
      * right. exists title, body. now apply onPush_displays with d.
      * apply GetV_throws_for_every_key with (k' := str "body") in Ht.
        congruence.
    + left. exists e. now apply onPush_read_throws with d.
  - left. exists e. now apply onPush_data_throws.
Qed.

Lemma onPush_no_payload_or_non_null event h :
  no_payload_or_non_null event ->
  exists title body, onPush event h = displayed event title body h.
Proof.
  intros [Hnone | (d & v & Hsome & Hv & Hnn)].
  - exists (JString (str "Market Alert")), (JString (str "New Signal Detected!")).
    apply onPush_displays with default_data; try reflexivity.
    unfold notification_data. now rewrite Hnone.
  - pose proof (json_not_undefined _ _ Hv) as Hu.
    destruct (GetV_non_null v (str "body") Hu Hnn) as [body Hb].
    destruct (GetV_non_null v (str "title") Hu Hnn) as [title Ht].
    exists title, body. apply onPush_displays with v; auto.
    unfold notification_data. now rewrite Hsome.
Qed.

(** In every other case the listener throws before any platform call. *)
Lemma onPush_otherwise_throws event h :
  ~ no_payload_or_non_null event ->
  exists e, onPush event h = thrown e h.
Proof.
  intros Hnot. destruct (data event) as [d|] eqn:Hd.
  - destruct (json d) as [v|e] eqn:Hj.
    + assert (Hv : v = JNull).
      { destruct v; try reflexivity; exfalso; apply Hnot; right;
          eexists _, _; repeat split; eauto; discriminate. }
      subst v. exists TypeError.
      apply onPush_read_throws with JNull; [|reflexivity].
      unfold notification_data. now rewrite Hd.
    + exists e. apply onPush_data_throws.
      unfold notification_data. now rewrite Hd.
  - exfalso. apply Hnot. now left.
Qed.

(** ** [JSON.parse] and [json()] on sample texts *)

Section Samples.

Example parse_null : JSON.parse (str "null") = Some JNull.
Proof. reflexivity. Qed.

Example parse_nested :
  JSON.parse (str " [1, -2.5e+3, true, [], {}] ")
  = Some (JArray [ JNumber (str "1"); JNumber (str "-2.5e+3"); JBool true;
                   JArray []; JObject [] ]).
Proof. reflexivity. Qed.

Example parse_duplicate_key :
  JSON.parse (str ("{" ++ quoted "a" ++ ":1," ++ quoted "b" ++ ":2,"
                       ++ quoted "a" ++ ":3}"))
  = Some (JObject [(str "a", JNumber (str "3")); (str "b", JNumber (str "2"))]).
Proof. reflexivity. Qed.

Example parse_escapes :
  JSON.parse (str (quoted "\u0041\n\/"))
  = Some (JString [0x41; 0x0A; 0x2F]%N).
Proof. reflexivity. Qed.

Example parse_rejects_empty : JSON.parse (str EmptyString) = None.
Proof. reflexivity. Qed.

Example parse_rejects_trailing_comma : JSON.parse (str "[1,]") = None.
Proof. reflexivity. Qed.

Example parse_rejects_leading_zero : JSON.parse (str "01") = None.
Proof. reflexivity. Qed.

Example parse_rejects_two_values : JSON.parse (str "1 2") = None.
Proof. reflexivity. Qed.

Example parse_rejects_bare_key : JSON.parse (str "{title:1}") = None.
Proof. reflexivity. Qed.

Example parse_rejects_single_quotes : JSON.parse (str "{'title':1}") = None.
Proof. reflexivity. Qed.

Example parse_rejects_open_string :
  JSON.parse (str (String dquote "abc")) = None.
Proof. reflexivity. Qed.

Example parse_rejects_mismatched_close : JSON.parse (str "[1}") = None.
Proof. reflexivity. Qed.

Example utf8_decode_sequences :
  utf8_decode [0xC3; 0xA9; 0xE2; 0x82; 0xAC; 0xF0; 0x9F; 0x98; 0x80]%N
  = [0xE9; 0x20AC; 0xD83D; 0xDE00]%N.
Proof. reflexivity. Qed.

Example utf8_decode_ill_formed :
  utf8_decode [0xC3; 0x28; 0xED; 0xA0; 0x80; 0xE2]%N
  = [0xFFFD; 0x28; 0xFFFD; 0xFFFD; 0xFFFD; 0xFFFD]%N.
Proof. reflexivity. Qed.

Example json_skips_byte_order_mark :
  json {| payload := [0xEF; 0xBB; 0xBF]%N ++ str "{}" |} = Normal (JObject []).
Proof. reflexivity. Qed.

Example json_rejects_empty_payload :
  json {| payload := [] |} = Throw SyntaxError.
Proof. reflexivity. Qed.

End Samples.

(** ** Payloads written out: [alert_text] *)

Section AlertText.

Lemma str_app (s t : string) : str (s ++ t) = str s ++ str t.
Proof.
  induction s as [|a s IH]; simpl; [reflexivity | now rewrite IH].
Qed.

(** ASCII octets decode to themselves. *)
Lemma utf8_run_ascii bs :
  forallb (fun b => b <=? 0x7F)%N bs = true ->
  utf8_run utf8_init bs = bs.
Proof.
  induction bs as [|b bs IH]; [reflexivity|].
  cbn [forallb utf8_run]. intros H. apply andb_true_iff in H as [Hb Hbs].
  unfold utf8_step, utf8_lead. cbn [utf8_bytes_left utf8_init].
  rewrite Hb, IH by assumption. reflexivity.
Qed.

Lemma utf16_units_ascii bs :
  forallb (fun b => b <=? 0x7F)%N bs = true ->
  flat_map utf16_units bs = bs.
Proof.
  induction bs as [|b bs IH]; [reflexivity|].
  cbn [forallb flat_map]. intros H. apply andb_true_iff in H as [Hb Hbs].
  rewrite IH by assumption. unfold utf16_units.
  replace (b <? 0x10000)%N with true; [reflexivity|].
  symmetry. apply N.ltb_lt. apply N.leb_le in Hb. lia.
Qed.

Lemma strip_bom_ascii bs :
  forallb (fun b => b <=? 0x7F)%N bs = true -> strip_bom bs = bs.
Proof.
  destruct bs as [|b1 [|b2 [|b3 bs]]]; try reflexivity.
  simpl. intros H. apply andb_true_iff in H as [Hb _].
  replace (b1 =? 0xEF)%N with false; [reflexivity|].
  symmetry. apply N.eqb_neq. apply N.leb_le in Hb. lia.
Qed.

Lemma utf8_decode_ascii bs :
  forallb (fun b => b <=? 0x7F)%N bs = true -> utf8_decode bs = bs.
Proof.
  intros H. unfold utf8_decode.
  now rewrite strip_bom_ascii, utf8_run_ascii, utf16_units_ascii.
Qed.

Lemma plain_ascii s :
  forallb plain s = true -> forallb (fun b => b <=? 0x7F)%N s = true.
Proof.
  induction s as [|c s IH]; simpl; [reflexivity|].
  intros H. apply andb_true_iff in H as [Hc Hs].
  rewrite IH by assumption. unfold plain in Hc.
  apply andb_true_iff in Hc as [Hc _]. apply andb_true_iff in Hc as [Hc _].
  apply andb_true_iff in Hc as [_ Hc]. now rewrite Hc.
Qed.

(** The scanner can be run stretch by stretch. *)
Lemma lex_from_app text : forall st rest,
  lex_from st (text ++ rest)
  = match lex_run st text with
    | Some (toks, st') =>
        match lex_from st' rest with
        | Some more => Some (toks ++ more)
        | None => None
        end
    | None => None
    end.
Proof.
  induction text as [|c text IH]; simpl; intros st rest.
  - destruct (lex_from st rest); reflexivity.
  - destruct (lex_step st c) as [[toks st']|]; [|reflexivity].
    rewrite IH. destruct (lex_run st' text) as [[more st'']|]; [|reflexivity].
    destruct (lex_from st'' rest); [|reflexivity].
    now rewrite app_assoc.
Qed.

(** Inside a string literal, plain code units are taken as they are. *)
Lemma lex_run_plain s : forall acc,
  forallb plain s = true ->
  lex_run (LStr acc) s = Some ([], LStr (rev s ++ acc)).
Proof.
  induction s as [|c s IH]; intros acc H; [reflexivity|].
  cbn [forallb] in H. apply andb_true_iff in H as [Hc Hs].
  unfold plain in Hc.
  apply andb_true_iff in Hc as [Hc Hbs]. apply andb_true_iff in Hc as [Hc Hq].
  apply andb_true_iff in Hc as [Hlo _].
  apply negb_true_iff in Hbs, Hq.
  cbn [lex_run lex_step]. rewrite Hq, Hbs.
  replace (c <? 0x20)%N with false
    by (symmetry; apply N.ltb_ge; now apply N.leb_le).
  rewrite IH by assumption. cbn [rev app]. now rewrite <- app_assoc.
Qed.

Lemma alert_text_units (T B : string) :
  str (alert_text T B)
  = str ("{" ++ quoted "title" ++ ":" ++ String dquote EmptyString)
    ++ str T
    ++ str (String dquote ("," ++ quoted "body" ++ ":" ++ String dquote EmptyString))
    ++ str B
    ++ str (String dquote "}").
Proof.
  unfold alert_text, quoted. simpl. rewrite !str_app. simpl.
  rewrite !str_app. simpl. rewrite <- !app_assoc. reflexivity.
Qed.

(** The text [alert_text T B], for plain [T] and [B], is the payload of the
    object with [title] [T] and [body] [B]. *)
Lemma alert_text_json (T B : string) :
  forallb plain (str T) = true ->
  forallb plain (str B) = true ->
  json {| payload := str (alert_text T B) |}
  = Normal (JObject [ (str "title", JString (str T));
                      (str "body", JString (str B)) ]).
Proof.
  intros HT HB. unfold json. cbn [payload].
  rewrite utf8_decode_ascii.
  2:{ rewrite alert_text_units, !forallb_app.
      rewrite (plain_ascii _ HT), (plain_ascii _ HB). reflexivity. }
  unfold JSON.parse, lex. rewrite alert_text_units.
  rewrite lex_from_app.
  replace (lex_run LStart _)
    with (Some ([TLBrace; TString (str "title"); TColon], LStr []))
    by reflexivity.
  rewrite lex_from_app, (lex_run_plain _ [] HT).
  rewrite lex_from_app.
  replace (lex_run (LStr (rev (str T) ++ [])) _)
    with (Some ([TString (rev (rev (str T) ++ [])); TComma;
                 TString (str "body"); TColon], LStr []))
    by reflexivity.
  rewrite lex_from_app, (lex_run_plain _ [] HB).
  replace (lex_from (LStr (rev (str B) ++ [])) _)
    with (Some [TString (rev (rev (str B) ++ [])); TRBrace])
    by reflexivity.
  rewrite !app_nil_r, !rev_involutive. reflexivity.
Qed.

(** For such a payload the listener displays [T] and [B]. *)
Lemma onPush_alert_text (id : EventId) (T B : string) (h : HostState) :
  forallb plain (str T) = true ->
  forallb plain (str B) = true ->
  onPush (push_with id (alert_text T B)) h
  = displayed (push_with id (alert_text T B)) (JString (str T)) (JString (str B)) h.
Proof.
  intros HT HB.
  apply onPush_displays
    with (d := JObject [ (str "title", JString (str T));
                         (str "body", JString (str B)) ]).
  - unfold notification_data, push_with. cbn [data].
    now apply alert_text_json.
  - reflexivity.
  - reflexivity.
Qed.

End AlertText.

(** ** The statements *)

(** C1: when the payload of a push event parses as a JSON object whose
    [title] is the string [T] and whose [body] is the string [B], the
    listener issues one notification-display request, with title [T] and an
    options object whose [body] is [B]. *)
Theorem C1_payload_title_and_body :
  forall (event : PushEvent) (d : PushMessageData)
         (props : list (jsstring * JsValue)) (T B : jsstring) (h : HostState),
    data event = Some d ->
    json d = Normal (JObject props) ->
    own_prop (str "title") props = Some (JString T) ->
    own_prop (str "body") props = Some (JString B) ->
    requests (calls (onPush event h))
      = [(JString T, options (JString B), next_promise h)] /\
    GetV (options (JString B)) (str "body") = Normal (JString B).
Proof.
  intros event d props T B h Hd Hj Ht Hb. split; [|reflexivity].
  rewrite onPush_displays
    with (d := JObject props) (body := JString B) (title := JString T).
  - reflexivity.
  - unfold notification_data. now rewrite Hd.
  - unfold GetV. now rewrite Hb.
  - unfold GetV. now rewrite Ht.
Qed.

Lemma C1_witness :
  requests (calls (onPush
     (push_with 1 (alert_text "BTC Alert" "Price crossed $50k"))
     {| next_promise := 0 |}))
    = [(JString (str "BTC Alert"),
        options (JString (str "Price crossed $50k")), 0)] /\
  GetV (options (JString (str "Price crossed $50k"))) (str "body")
    = Normal (JString (str "Price crossed $50k")).
Proof.
  apply (C1_payload_title_and_body
           (push_with 1 (alert_text "BTC Alert" "Price crossed $50k"))
           {| payload := str (alert_text "BTC Alert" "Price crossed $50k") |}
           [ (str "title", JString (str "BTC Alert"));
             (str "body", JString (str "Price crossed $50k")) ]);
    reflexivity.
Defined.

(** C2: for a push event without payload, the listener issues one
    notification-display request, with title "Market Alert" and an options
    object whose [body] is "New Signal Detected!". *)
Theorem C2_no_payload_defaults :
  forall (event : PushEvent) (h : HostState),
    data event = None ->
    requests (calls (onPush event h))
      = [(JString (str "Market Alert"),
          options (JString (str "New Signal Detected!")), next_promise h)] /\
    GetV (options (JString (str "New Signal Detected!"))) (str "body")
      = Normal (JString (str "New Signal Detected!")).
Proof.
  intros event h Hd. split; [|reflexivity].
  rewrite onPush_displays with (d := default_data)
    (body := JString (str "New Signal Detected!"))
    (title := JString (str "Market Alert")); try reflexivity.
  unfold notification_data. now rewrite Hd.
Qed.

Lemma C2_witness :
  requests (calls (onPush (push_empty 4) {| next_promise := 2 |}))
    = [(JString (str "Market Alert"),
        options (JString (str "New Signal Detected!")), 2)] /\
  GetV (options (JString (str "New Signal Detected!"))) (str "body")
    = Normal (JString (str "New Signal Detected!")).
Proof.
  apply (C2_no_payload_defaults (push_empty 4) {| next_promise := 2 |}).
  reflexivity.
Defined.

(** C3: when the payload of a push event is present and is not JSON text, the
    listener ends with the [SyntaxError] that parsing threw, the default data
    is not substituted, and no platform call is made: no notification-display
    request (and no lifetime extension). *)
Theorem C3_malformed_payload_propagates :
  forall (event : PushEvent) (d : PushMessageData) (h : HostState),
    data event = Some d ->
    JSON.parse (utf8_decode (payload d)) = None ->
    completion (onPush event h) = Throw SyntaxError /\
    notification_data event <> Normal default_data /\
    requests (calls (onPush event h)) = [] /\
    calls (onPush event h) = [].
Proof.
  intros event d h Hd Hp.
  assert (Hn : notification_data event = Throw SyntaxError).
  { unfold notification_data, json. now rewrite Hd, Hp. }
  rewrite (onPush_data_throws event h SyntaxError Hn). simpl.
  repeat split. rewrite Hn. discriminate.
Qed.

Lemma C3_witness :
  completion (onPush (push_with 1 "Price crossed $50k") {| next_promise := 0 |})
    = Throw SyntaxError /\
  notification_data (push_with 1 "Price crossed $50k") <> Normal default_data /\
  requests (calls (onPush (push_with 1 "Price crossed $50k") {| next_promise := 0 |}))
    = [] /\
  calls (onPush (push_with 1 "Price crossed $50k") {| next_promise := 0 |}) = [].
Proof.
  apply (C3_malformed_payload_propagates
           (push_with 1 "Price crossed $50k") {| payload := str "Price crossed $50k" |});
    reflexivity.
Defined.

(** C4 (as stated, refuted): a payload that is a JSON object without [title]
    gives derived data whose [title] is [undefined]. *)
Lemma C4_counterexample :
  let event := push_with 1 ("{" ++ quoted "body" ++ ":" ++ quoted "Price crossed $50k" ++ "}") in
  notification_data event
    = Normal (JObject [(str "body", JString (str "Price crossed $50k"))]) /\
  GetV (JObject [(str "body", JString (str "Price crossed $50k"))]) (str "title")
    = Normal JUndefined /\
  ~ (exists d, notification_data event = Normal d /\ has_title_and_body d).
Proof.
  repeat split.
  intros (d & Hd & t & b & Ht & _ & [Hu _] & _).
  vm_compute in Hd. injection Hd as <-.
  vm_compute in Ht. congruence.
Qed.

(** C4 (amended): when the event has no payload, or its payload parses as a
    JSON object in which [title] and [body] are both present with values
    other than [null], the derived notification data has defined (neither
    [undefined] nor [null]) [title] and [body]. *)
Theorem C4_defined_title_and_body :
  forall (event : PushEvent),
    (data event = None \/
     exists d props t b,
       data event = Some d /\ json d = Normal (JObject props) /\
       own_prop (str "title") props = Some t /\
       own_prop (str "body") props = Some b /\
       t <> JNull /\ b <> JNull) ->
    exists d, notification_data event = Normal d /\ has_title_and_body d.
Proof.
  intros event [Hnone | (d & props & t & b & Hsome & Hj & Ht & Hb & Htn & Hbn)].
  - exists default_data. split.
    + unfold notification_data. now rewrite Hnone.
    + exists (JString (str "Market Alert")), (JString (str "New Signal Detected!")).
      repeat split; discriminate.
  - exists (JObject props). split.
    + unfold notification_data. now rewrite Hsome.
    + pose proof (json_is_json _ _ Hj) as Hprops. simpl in Hprops.
      exists t, b. unfold GetV. rewrite Ht, Hb. repeat split; auto.
      * intros ->. now apply own_prop_json with (1 := Hprops) in Ht.
      * intros ->. now apply own_prop_json with (1 := Hprops) in Hb.
Qed.

Lemma C4_witness :
  exists d,
    notification_data (push_with 1 (alert_text "BTC Alert" "Price crossed $50k"))
      = Normal d /\
    has_title_and_body d.
Proof.
  apply (C4_defined_title_and_body
           (push_with 1 (alert_text "BTC Alert" "Price crossed $50k"))).
  right.
  exists {| payload := str (alert_text "BTC Alert" "Price crossed $50k") |},
         [ (str "title", JString (str "BTC Alert"));
           (str "body", JString (str "Price crossed $50k")) ],
         (JString (str "BTC Alert")), (JString (str "Price crossed $50k")).
  repeat split; try reflexivity; discriminate.
Defined.

(** C5 (as stated, refuted): for a payload that is not JSON text the listener
    throws and issues no notification-display request. *)
Lemma C5_counterexample :
  let o := onPush (push_with 1 "Price crossed $50k") {| next_promise := 0 |} in
  completion o = Throw SyntaxError /\
  requests (calls o) = [] /\
  ~ one_request_no_value o.
Proof.
  repeat split. intros [H _]. vm_compute in H. discriminate.
Qed.

(** C5 (amended): for every push event that has no payload, or whose payload
    parses as a JSON value other than [null], the listener issues exactly one
    notification-display request and returns [undefined]. *)
Theorem C5_one_request_per_event :
  forall (event : PushEvent) (h : HostState),
    no_payload_or_non_null event ->
    one_request_no_value (onPush event h).
Proof.
  intros event h H.
  destruct (onPush_no_payload_or_non_null event h H) as (title & body & ->).
  split; reflexivity.
Qed.

Lemma C5_witness :
  one_request_no_value
    (onPush (push_with 1 (alert_text "BTC Alert" "Price crossed $50k"))
            {| next_promise := 0 |}).
Proof.
  apply C5_one_request_per_event. right.
  exists {| payload := str (alert_text "BTC Alert" "Price crossed $50k") |},
         (JObject [ (str "title", JString (str "BTC Alert"));
                    (str "body", JString (str "Price crossed $50k")) ]).
  repeat split; try reflexivity; discriminate.
Defined.

(** C6: in every notification-display request the listener issues, whatever
    the payload, the options object has [icon] and [badge] equal to the fixed
    address. *)
Theorem C6_icon_and_badge_fixed :
  forall (event : PushEvent) (h : HostState) (title opts : JsValue)
         (p : Promise),
    In (title, opts, p) (requests (calls (onPush event h))) ->
    GetV opts (str "icon")
      = Normal (JString
          (str "https://cdn-icons-png.flaticon.com/512/2464/2464402.png")) /\
    GetV opts (str "badge")
      = Normal (JString
          (str "https://cdn-icons-png.flaticon.com/512/2464/2464402.png")).
Proof.
  intros event h title opts p Hin.
  destruct (onPush_cases event h) as [[e He] | (t & b & Hd)].
  - rewrite He in Hin. contradiction.
  - rewrite Hd in Hin. destruct Hin as [[= <- <- <-] | []].
    split; reflexivity.
Qed.

Lemma C6_witness :
  GetV (options JUndefined) (str "icon")
    = Normal (JString
        (str "https://cdn-icons-png.flaticon.com/512/2464/2464402.png")) /\
  GetV (options JUndefined) (str "badge")
    = Normal (JString
        (str "https://cdn-icons-png.flaticon.com/512/2464/2464402.png")).
Proof.
  apply (C6_icon_and_badge_fixed (push_with 1 "[1, 2]") {| next_promise := 0 |}
           JUndefined (options JUndefined) 0).
  left. reflexivity.
Defined.

(** C7 (as stated, refuted): for a payload that is not JSON text the listener
    throws before it reaches [event.waitUntil]; no lifetime extension is
    signalled. *)
Lemma C7_counterexample :
  let event := push_with 1 "Price crossed $50k" in
  let o := onPush event {| next_promise := 0 |} in
  completion o = Throw SyntaxError /\
  extensions (calls o) = [] /\
  ~ extends_once event o.
Proof.
  repeat split. intros (t & opts & p & _ & H). vm_compute in H. discriminate.
Qed.

(** C7 (amended): for every push event that has no payload, or whose payload
    parses as a JSON value other than [null], the listener signals lifetime
    extension for that event exactly once, with the promise returned by its
    notification-display request. *)
Theorem C7_extends_lifetime_once :
  forall (event : PushEvent) (h : HostState),
    no_payload_or_non_null event ->
    extends_once event (onPush event h).
Proof.
  intros event h H.
  destruct (onPush_no_payload_or_non_null event h H) as (title & body & ->).
  exists title, (options body), (next_promise h). split.
  - left. reflexivity.
  - reflexivity.
Qed.

Lemma C7_witness :
  extends_once (push_empty 4) (onPush (push_empty 4) {| next_promise := 2 |}).
Proof.
  apply C7_extends_lifetime_once. left. reflexivity.
Defined.

(** C8: when the payload parses as a JSON object without a [title] (resp.
    [body]) property, the notification-display request is still issued and
    its title (resp. the [body] of its options) is [undefined]: the defaults
    of line 3 are not applied field by field. *)
Theorem C8_missing_field_is_undefined :
  forall (event : PushEvent) (d : PushMessageData)
         (props : list (jsstring * JsValue)) (h : HostState),
    data event = Some d ->
    json d = Normal (JObject props) ->
    (own_prop (str "title") props = None ->
     exists body,
       requests (calls (onPush event h))
         = [(JUndefined, options body, next_promise h)]) /\
    (own_prop (str "body") props = None ->
     exists title,
       requests (calls (onPush event h))
         = [(title, options JUndefined, next_promise h)] /\
       GetV (options JUndefined) (str "body") = Normal JUndefined).
Proof.
  intros event d props h Hd Hj.
  assert (Hn : notification_data event = Normal (JObject props)).
  { unfold notification_data. now rewrite Hd. }
  destruct (GetV (JObject props) (str "body")) as [body|e] eqn:Hb.
  2:{ unfold GetV in Hb. destruct (own_prop (str "body") props); discriminate. }
  destruct (GetV (JObject props) (str "title")) as [title|e] eqn:Ht.
  2:{ unfold GetV in Ht. destruct (own_prop (str "title") props); discriminate. }
  rewrite (onPush_displays event h _ _ _ Hn Hb Ht).
  split; intros Hmiss.
  - exists body. unfold GetV in Ht. rewrite Hmiss in Ht.
    injection Ht as <-. reflexivity.
  - exists title. unfold GetV in Hb. rewrite Hmiss in Hb.
    injection Hb as <-. split; reflexivity.
Qed.

Lemma C8_witness :
  (exists body,
     requests (calls (onPush (push_with 1 "{}") {| next_promise := 0 |}))
       = [(JUndefined, options body, 0)]) /\
  (exists title,
     requests (calls (onPush (push_with 1 "{}") {| next_promise := 0 |}))
       = [(title, options JUndefined, 0)] /\
     GetV (options JUndefined) (str "body") = Normal JUndefined).
Proof.
  pose proof (C8_missing_field_is_undefined
                (push_with 1 "{}") {| payload := str "{}" |} []
                {| next_promise := 0 |} eq_refl eq_refl) as [Htitle Hbody].
  split; [apply Htitle | apply Hbody]; reflexivity.
Defined.

(** C9: there is a payload that is JSON text but not an object, the text
    [null], for which the listener throws a [TypeError] when it reads
    [data.body]; it issues neither a notification-display request nor a
    lifetime extension. *)
Theorem C9_json_null_throws :
  exists text : string,
    json {| payload := str text |} = Normal JNull /\
    GetV JNull (str "body") = Throw TypeError /\
    forall (id : EventId) (h : HostState),
      completion (onPush (push_with id text) h) = Throw TypeError /\
      requests (calls (onPush (push_with id text) h)) = [] /\
      extensions (calls (onPush (push_with id text) h)) = [].
Proof.
  exists "null"%string. repeat split;
    rewrite (onPush_read_throws (push_with id "null") h JNull TypeError);
    reflexivity.
Qed.

(** C10: two runs of the listener on events with equal payloads (or both
    without payload) complete alike and issue notification-display requests
    with the same title and the same options, whatever the events'
    identities and the host's states. *)
Theorem C10_depends_on_payload_only :
  forall (e1 e2 : PushEvent) (h1 h2 : HostState),
    data e1 = data e2 ->
    completion (onPush e1 h1) = completion (onPush e2 h2) /\
    map request_content (requests (calls (onPush e1 h1)))
      = map request_content (requests (calls (onPush e2 h2))).
Proof.
  intros e1 e2 h1 h2 Hd.
  assert (Hn : notification_data e1 = notification_data e2).
  { unfold notification_data. now rewrite Hd. }
  destruct (notification_data e2) as [d|e] eqn:H2.
  - destruct (GetV d (str "body")) as [body|e] eqn:Hb.
    + destruct (GetV d (str "title")) as [title|e] eqn:Ht.
      * rewrite (onPush_displays e1 h1 d body title Hn Hb Ht).
        rewrite (onPush_displays e2 h2 d body title H2 Hb Ht).
        split; reflexivity.
      * apply GetV_throws_for_every_key with (k' := str "body") in Ht.
        congruence.
    + rewrite (onPush_read_throws e1 h1 d e Hn Hb).
      rewrite (onPush_read_throws e2 h2 d e H2 Hb).
      split; reflexivity.
  - rewrite (onPush_data_throws e1 h1 e Hn).
    rewrite (onPush_data_throws e2 h2 e H2).
    split; reflexivity.
Qed.

Lemma C10_witness :
  completion (onPush (push_with 1 (alert_text "BTC Alert" "Price crossed $50k"))
                     {| next_promise := 0 |})
    = completion (onPush (push_with 2 (alert_text "BTC Alert" "Price crossed $50k"))
                         {| next_promise := 5 |}) /\
  map request_content
      (requests (calls (onPush (push_with 1 (alert_text "BTC Alert" "Price crossed $50k"))
                               {| next_promise := 0 |})))
    = map request_content
        (requests (calls (onPush (push_with 2 (alert_text "BTC Alert" "Price crossed $50k"))
                                 {| next_promise := 5 |}))).
Proof.
  apply (C10_depends_on_payload_only
           (push_with 1 (alert_text "BTC Alert" "Price crossed $50k"))
           (push_with 2 (alert_text "BTC Alert" "Price crossed $50k"))
           {| next_promise := 0 |} {| next_promise := 5 |}).
  reflexivity.
Defined.

(** ** Further properties of the listener *)

Lemma GetV_throws_type_error d k e : GetV d k = Throw e -> e = TypeError.
Proof.
  destruct d; simpl; try discriminate; try (now intros [= <-]).
  destruct (own_prop k props); discriminate.
Qed.

Lemma GetV_throws_on_null d k e :
  GetV d k = Throw e -> d = JUndefined \/ d = JNull.
Proof.
  destruct d; simpl; try discriminate; auto.
  destruct (own_prop k props); discriminate.
Qed.

(** How a run completes, read off the two places where it can throw. *)
Lemma onPush_completion event h :
  completion (onPush event h)
  = match notification_data event with
    | Throw e => Throw e
    | Normal d =>
        match GetV d (str "body") with
        | Throw e => Throw e
        | Normal _ => Normal JUndefined
        end
    end.
Proof.
  destruct (notification_data event) as [d|e] eqn:Hd.
  - destruct (GetV d (str "body")) as [body|e] eqn:Hb.
    + destruct (GetV d (str "title")) as [title|e] eqn:Ht.
      * now rewrite (onPush_displays event h d body title Hd Hb Ht).
      * apply GetV_throws_for_every_key with (k' := str "body") in Ht.
        congruence.
    + now rewrite (onPush_read_throws event h d e Hd Hb).
  - now rewrite (onPush_data_throws event h e Hd).
Qed.

(** X1: a run makes all of its platform calls or none.  Either it throws,
    having made no call and left the host as it was, or it returns
    [undefined] after exactly two calls: the notification-display request,
    whose options are the three-field literal, and then the lifetime
    extension of the same event with the promise that request returned. *)
Theorem X1_calls_all_or_none :
  forall (event : PushEvent) (h : HostState),
    (exists e,
       completion (onPush event h) = Throw e /\
       calls (onPush event h) = [] /\
       host_after (onPush event h) = h) \/
    (exists title body,
       completion (onPush event h) = Normal JUndefined /\
       calls (onPush event h)
         = [ ShowNotification title
               (JObject [ (str "body", body);
                          (str "icon", JString icon_url);
                          (str "badge", JString icon_url) ])
               (next_promise h);
             WaitUntil (event_id event) (next_promise h) ]).
Proof.
  intros event h.
  destruct (onPush_cases event h) as [[e ->] | (title & body & ->)].
  - left. exists e. repeat split.
  - right. exists title, body. split; reflexivity.
Qed.

(** X2: a notification-display request is issued exactly when the event has
    no payload or its payload is the text of a JSON value other than
    [null]. *)
Theorem X2_request_iff_no_payload_or_non_null :
  forall (event : PushEvent) (h : HostState),
    requests (calls (onPush event h)) <> [] <-> no_payload_or_non_null event.
Proof.
  intros event h. split.
  - intros Hreq. destruct (data event) as [d|] eqn:Hd; [|now left].
    destruct (json d) as [v|e] eqn:Hj.
    + destruct v;
        try (right; exists d; eexists; repeat split; eauto; discriminate).
      exfalso. apply Hreq.
      rewrite (onPush_read_throws event h JNull TypeError); try reflexivity.
      unfold notification_data. now rewrite Hd.
    + exfalso. apply Hreq.
      rewrite (onPush_data_throws event h e); [reflexivity|].
      unfold notification_data. now rewrite Hd.
  - intros H.
    destruct (onPush_no_payload_or_non_null event h H) as (title & body & ->).
    discriminate.
Qed.

(** X3: the listener ends with a [SyntaxError] exactly when the event has a
    payload that is not JSON text. *)
Theorem X3_syntax_error_iff_not_json :
  forall (event : PushEvent) (h : HostState),
    completion (onPush event h) = Throw SyntaxError <->
    exists d, data event = Some d /\
              JSON.parse (utf8_decode (payload d)) = None.
Proof.
  intros event h. rewrite onPush_completion. unfold notification_data.
  split.
  - destruct (data event) as [d|]; [|discriminate].
    intros H. exists d. split; [reflexivity|].
    unfold json in H.
    destruct (JSON.parse (utf8_decode (payload d))) as [v|]; [|reflexivity].
    destruct (GetV v (str "body")) as [b|e] eqn:Hb; [discriminate|].
    apply GetV_throws_type_error in Hb. congruence.
  - intros (d & -> & Hp). unfold json. now rewrite Hp.
Qed.

(** X4: the listener ends with a [TypeError] exactly when the event has a
    payload that is the JSON text of [null]. *)
Theorem X4_type_error_iff_json_null :
  forall (event : PushEvent) (h : HostState),
    completion (onPush event h) = Throw TypeError <->
    exists d, data event = Some d /\ json d = Normal JNull.
Proof.
  intros event h. rewrite onPush_completion. unfold notification_data.
  split.
  - destruct (data event) as [d|]; [|discriminate].
    intros H. exists d. split; [reflexivity|].
    destruct (json d) as [v|e] eqn:Hj.
    + destruct (GetV v (str "body")) as [b|e] eqn:Hb; [discriminate|].
      apply GetV_throws_on_null in Hb as [-> | ->]; [|reflexivity].
      apply json_not_undefined in Hj. congruence.
    + apply json_throws_syntax_error in Hj. congruence.
  - intros (d & -> & ->). reflexivity.
Qed.

(** X5: when the payload is the JSON text of a boolean, a number, a string
    or an array, the listener still displays: the request has an
    [undefined] title and an [undefined] options body, and the lifetime
    extension follows. *)
Theorem X5_scalar_or_array_payload :
  forall (event : PushEvent) (d : PushMessageData) (v : JsValue)
         (h : HostState),
    data event = Some d ->
    json d = Normal v ->
    scalar_or_array v = true ->
    completion (onPush event h) = Normal JUndefined /\
    calls (onPush event h)
      = [ ShowNotification JUndefined (options JUndefined) (next_promise h);
          WaitUntil (event_id event) (next_promise h) ].
Proof.
  intros event d v h Hd Hj Hv.
  rewrite (onPush_displays event h v JUndefined JUndefined).
  - split; reflexivity.
  - unfold notification_data. now rewrite Hd.
  - destruct v; try discriminate; reflexivity.
  - destruct v; try discriminate; reflexivity.
Qed.

Lemma X5_witness :
  completion (onPush (push_with 3 (quoted "BTC up 5%")) {| next_promise := 1 |})
    = Normal JUndefined /\
  calls (onPush (push_with 3 (quoted "BTC up 5%")) {| next_promise := 1 |})
    = [ ShowNotification JUndefined (options JUndefined) 1; WaitUntil 3 1 ].
Proof.
  apply (X5_scalar_or_array_payload
           (push_with 3 (quoted "BTC up 5%"))
           {| payload := str (quoted "BTC up 5%") |}
           (JString (str "BTC up 5%")));
    reflexivity.
Defined.

(** X6: the [title] and [body] of a payload object are handed to the
    request as they are, whatever their JSON type: no conversion to a
    string, and no default in place of [null]. *)
Theorem X6_values_forwarded_unchanged :
  forall (event : PushEvent) (d : PushMessageData)
         (props : list (jsstring * JsValue)) (t b : JsValue) (h : HostState),
    data event = Some d ->
    json d = Normal (JObject props) ->
    own_prop (str "title") props = Some t ->
    own_prop (str "body") props = Some b ->
    requests (calls (onPush event h)) = [(t, options b, next_promise h)].
Proof.
  intros event d props t b h Hd Hj Ht Hb.
  rewrite (onPush_displays event h (JObject props) b t).
  - reflexivity.
  - unfold notification_data. now rewrite Hd.
  - unfold GetV. now rewrite Hb.
  - unfold GetV. now rewrite Ht.
Qed.

Lemma X6_witness :
  requests (calls (onPush
     (push_with 1 ("{" ++ quoted "title" ++ ":null," ++ quoted "body" ++ ":[50]}"))
     {| next_promise := 0 |}))
  = [(JNull, options (JArray [JNumber (str "50")]), 0)].
Proof.
  apply (X6_values_forwarded_unchanged
           (push_with 1 ("{" ++ quoted "title" ++ ":null," ++ quoted "body" ++ ":[50]}"))
           {| payload := str ("{" ++ quoted "title" ++ ":null," ++ quoted "body" ++ ":[50]}") |}
           [ (str "title", JNull); (str "body", JArray [JNumber (str "50")]) ]);
    reflexivity.
Defined.

Lemma X2_witness :
  requests (calls (onPush (push_with 1 "[1, 2]") {| next_promise := 0 |})) <> [].
Proof.
  apply (proj2 (X2_request_iff_no_payload_or_non_null
                  (push_with 1 "[1, 2]") {| next_promise := 0 |})).
  right. exists {| payload := str "[1, 2]" |},
                (JArray [JNumber (str "1"); JNumber (str "2")]).
  repeat split; try reflexivity; discriminate.
Defined.

Lemma X3_witness :
  completion (onPush (push_with 1 "{title: BTC}") {| next_promise := 0 |})
  = Throw SyntaxError.
Proof.
  apply (proj2 (X3_syntax_error_iff_not_json
                  (push_with 1 "{title: BTC}") {| next_promise := 0 |})).
  exists {| payload := str "{title: BTC}" |}. split; reflexivity.
Defined.

Lemma X4_witness :
  completion (onPush (push_with 1 " null ") {| next_promise := 0 |})
  = Throw TypeError.
Proof.
  apply (proj2 (X4_type_error_iff_json_null
                  (push_with 1 " null ") {| next_promise := 0 |})).
  exists {| payload := str " null " |}. split; reflexivity.
Defined.

(** What the listener does with a payload object: it reads [body] and
    [title] and nothing else. *)
Lemma onPush_object event h d props :
  data event = Some d ->
  json d = Normal (JObject props) ->
  onPush event h
  = displayed event
      (match own_prop (str "title") props with Some v => v | None => JUndefined end)
      (match own_prop (str "body") props with Some v => v | None => JUndefined end)
      h.
Proof.
  intros Hd Hj. apply onPush_displays with (JObject props).
  - unfold notification_data. now rewrite Hd.
  - unfold GetV. now destruct (own_prop (str "body") props).
  - unfold GetV. now destruct (own_prop (str "title") props).
Qed.

(** X7: the properties of a payload object other than [title] and [body] do
    not reach the notification.  Two payload objects that agree on [title]
    and on [body] (present with the same value, or absent in both) give
    requests with the same title and the same options; in particular an
    [icon] or [badge] in the payload changes nothing. *)
Theorem X7_other_properties_ignored :
  forall (e1 e2 : PushEvent) (d1 d2 : PushMessageData)
         (props1 props2 : list (jsstring * JsValue)) (h1 h2 : HostState),
    data e1 = Some d1 -> json d1 = Normal (JObject props1) ->
    data e2 = Some d2 -> json d2 = Normal (JObject props2) ->
    own_prop (str "title") props1 = own_prop (str "title") props2 ->
    own_prop (str "body") props1 = own_prop (str "body") props2 ->
    map request_content (requests (calls (onPush e1 h1)))
    = map request_content (requests (calls (onPush e2 h2))).
Proof.
  intros e1 e2 d1 d2 props1 props2 h1 h2 Hd1 Hj1 Hd2 Hj2 Ht Hb.
  rewrite (onPush_object e1 h1 d1 props1 Hd1 Hj1).
  rewrite (onPush_object e2 h2 d2 props2 Hd2 Hj2).
  rewrite Ht, Hb. reflexivity.
Qed.

Lemma X7_witness :
  map request_content
      (requests (calls (onPush
         (push_with 1 (alert_text "BTC Alert" "Price crossed $50k"))
         {| next_promise := 0 |})))
  = map request_content
      (requests (calls (onPush
         (push_with 2 ("{" ++ quoted "icon" ++ ":" ++ quoted "https://example.org/x.png" ++ ","
                           ++ quoted "body" ++ ":" ++ quoted "Price crossed $50k" ++ ","
                           ++ quoted "tag" ++ ":7,"
                           ++ quoted "title" ++ ":" ++ quoted "BTC Alert" ++ "}"))
         {| next_promise := 3 |}))).
Proof.
  apply (X7_other_properties_ignored
           (push_with 1 (alert_text "BTC Alert" "Price crossed $50k"))
           (push_with 2 ("{" ++ quoted "icon" ++ ":" ++ quoted "https://example.org/x.png" ++ ","
                             ++ quoted "body" ++ ":" ++ quoted "Price crossed $50k" ++ ","
                             ++ quoted "tag" ++ ":7,"
                             ++ quoted "title" ++ ":" ++ quoted "BTC Alert" ++ "}"))
           {| payload := str (alert_text "BTC Alert" "Price crossed $50k") |}
           {| payload :=
                str ("{" ++ quoted "icon" ++ ":" ++ quoted "https://example.org/x.png" ++ ","
                         ++ quoted "body" ++ ":" ++ quoted "Price crossed $50k" ++ ","
                         ++ quoted "tag" ++ ":7,"
                         ++ quoted "title" ++ ":" ++ quoted "BTC Alert" ++ "}") |}
           [ (str "title", JString (str "BTC Alert"));
             (str "body", JString (str "Price crossed $50k")) ]
           [ (str "icon", JString (str "https://example.org/x.png"));
             (str "body", JString (str "Price crossed $50k"));
             (str "tag", JNumber (str "7"));
             (str "title", JString (str "BTC Alert")) ]
           {| next_promise := 0 |} {| next_promise := 3 |});
    reflexivity.
Defined.

(** X8: from the octets of a payload to the notification.  For every title
    [T] and body [B] made of printable ASCII characters other than the
    quotation mark and the backslash, the payload whose text is the object
    literal with [title] [T] and [body] [B] makes the listener issue one
    request with title [T] and options body [B], then extend the event's
    lifetime with that request's promise. *)
Theorem X8_alert_text_displayed :
  forall (id : EventId) (T B : string) (h : HostState),
    forallb plain (str T) = true ->
    forallb plain (str B) = true ->
    completion (onPush (push_with id (alert_text T B)) h) = Normal JUndefined /\
    calls (onPush (push_with id (alert_text T B)) h)
      = [ ShowNotification (JString (str T)) (options (JString (str B)))
            (next_promise h);
          WaitUntil id (next_promise h) ].
Proof.
  intros id T B h HT HB.
  rewrite (onPush_alert_text id T B h HT HB). split; reflexivity.
Qed.

Lemma X8_witness :
  completion (onPush (push_with 9 (alert_text "ETH Alert" "Price fell below $2k"))
                     {| next_promise := 4 |})
    = Normal JUndefined /\
  calls (onPush (push_with 9 (alert_text "ETH Alert" "Price fell below $2k"))
                {| next_promise := 4 |})
    = [ ShowNotification (JString (str "ETH Alert"))
          (options (JString (str "Price fell below $2k"))) 4;
        WaitUntil 9 4 ].
Proof.
  apply (X8_alert_text_displayed 9 "ETH Alert" "Price fell below $2k"
           {| next_promise := 4 |});
    reflexivity.
Defined.

Lemma is_ws_ascii bs :
  forallb is_ws bs = true -> forallb (fun b => b <=? 0x7F)%N bs = true.
Proof.
  induction bs as [|b bs IH]; [reflexivity|].
  cbn [forallb]. intros H. apply andb_true_iff in H as [Hb Hbs].
  rewrite IH by assumption. unfold is_ws in Hb.
  repeat (apply orb_true_iff in Hb as [Hb | Hb]);
    apply N.eqb_eq in Hb; subst b; reflexivity.
Qed.

Lemma lex_white_space text :
  forallb is_ws text = true -> lex_from LStart text = Some [].
Proof.
  induction text as [|c text IH]; [reflexivity|].
  cbn [forallb]. intros H. apply andb_true_iff in H as [Hc Htext].
  cbn [lex_from lex_step]. unfold lex_start. rewrite Hc.
  now rewrite IH.
Qed.

(** X9: a payload that is present but empty, or made of JSON white space
    only, is not treated as absent: the listener ends with a [SyntaxError]
    and makes no platform call, so the default notification is not shown. *)
Theorem X9_blank_payload_throws :
  forall (event : PushEvent) (d : PushMessageData) (h : HostState),
    data event = Some d ->
    forallb is_ws (payload d) = true ->
    completion (onPush event h) = Throw SyntaxError /\
    calls (onPush event h) = [].
Proof.
  intros event d h Hd Hws.
  rewrite (onPush_data_throws event h SyntaxError).
  - split; reflexivity.
  - unfold notification_data, json, JSON.parse, lex. rewrite Hd.
    rewrite utf8_decode_ascii by now apply is_ws_ascii.
    now rewrite lex_white_space.
Qed.

Lemma X9_witness :
  completion (onPush {| event_id := 1; data := Some {| payload := [] |} |}
                     {| next_promise := 0 |})
    = Throw SyntaxError /\
  calls (onPush {| event_id := 1; data := Some {| payload := [] |} |}
                {| next_promise := 0 |}) = [].
Proof.
  apply (X9_blank_payload_throws
           {| event_id := 1; data := Some {| payload := [] |} |}
           {| payload := [] |});
    reflexivity.
Defined.
